(** * PurpleAirSensor: the polling engine of src/accessory.ts

    A shallow embedding of the [PurpleAirSensor] class: the instance fields,
    the [update] method (split at its single [await]), the StatusActive GET
    handlers, [lastReadingActive] and [updateHomeKit].  Effects on the outside
    world (log lines, HTTP requests, HomeKit characteristic writes, the
    characteristic-get callback) are recorded as a trace of events. *)

From Stdlib Require Import ZArith QArith Lia Lqa.
From stdpp Require Import base gmap strings list.

Local Open Scope Z_scope.

(** ** Values *)

(** A JavaScript number carrying a measurement (finite values only). *)
Definition number := Q.

(** Truthiness of a number, as tested by [if (x)]: zero is falsy. *)
Definition truthy_number (x : number) : bool := negb (Qeq_bool x 0).

(** Truthiness of an optional number field: [undefined] and [0] are falsy. *)
Definition truthy (x : option number) : bool :=
  match x with
  | Some v => truthy_number v
  | None => false
  end.

(** The body of an HTTP response after axios decoded it. *)
#[local] Unset Elimination Schemes.
Inductive Json :=
| JNull
| JBool (b : bool)
| JNum (q : Q)
| JStr (s : string)
| JArr (items : list Json)
| JObj (fields : list (string * Json)).
#[local] Set Elimination Schemes.

(** First binding of [k] in an object's field list. *)
Fixpoint assoc (k : string) (fields : list (string * Json)) : option Json :=
  match fields with
  | [] => None
  | (k', v) :: rest => if String.eqb k k' then Some v else assoc k rest
  end.

(** Property access [data.k]: [None] is a TypeError (access on [null]),
    [Some None] is [undefined], [Some (Some v)] is the value. *)
Definition js_get (k : string) (data : Json) : option (option Json) :=
  match data with
  | JNull => None
  | JObj fields => Some (assoc k fields)
  | _ => Some None
  end.

(** ** SensorReading *)

(** Modelled from the spec: the [SensorReading] type of ./SensorReading,
    which is not among the sources; the fields are the ones the accessory
    reads, an integer timestamp and measurements that may be absent where
    the spec says so. *)

Record SensorReading := {
  updateTimeMs : Z;
  pm25 : number;
  aqi : number;
  airQualityHomekitReading : number;
  temperature : option number;
  humidity : number;
  voc : option number;
}.

(** ** The accessory instance *)

Record PurpleAirSensor := {
  name : string;
  sensor : string;
  apiReadKey : option string;
  key : option string;
  localIPAddress : option string;
  averages : string;
  conversion : string;
  aqiInsteadOfDensity : bool;
  verboseLogging : bool;
  updateIntervalMs : Z;
  lastReading : option SensorReading;
}.

Definition DEFAULT_UPDATE_INTERVAL_SECS : Z := 300.
Definition MIN_UPDATE_INTERVAL_MS : Z := 30 * 1000.

(** [this.lastReading = r]; every other field is readonly. *)
Definition set_lastReading (r : option SensorReading) (s : PurpleAirSensor)
  : PurpleAirSensor :=
  {| name := name s; sensor := sensor s; apiReadKey := apiReadKey s;
     key := key s; localIPAddress := localIPAddress s;
     averages := averages s; conversion := conversion s;
     aqiInsteadOfDensity := aqiInsteadOfDensity s;
     verboseLogging := verboseLogging s;
     updateIntervalMs := updateIntervalMs s;
     lastReading := r |}.

(** The same instance built with another [aqiInsteadOfDensity] setting. *)
Definition with_aqiInsteadOfDensity (b : bool) (s : PurpleAirSensor)
  : PurpleAirSensor :=
  {| name := name s; sensor := sensor s; apiReadKey := apiReadKey s;
     key := key s; localIPAddress := localIPAddress s;
     averages := averages s; conversion := conversion s;
     aqiInsteadOfDensity := b;
     verboseLogging := verboseLogging s;
     updateIntervalMs := updateIntervalMs s;
     lastReading := lastReading s |}.

(** The part of [AccessoryConfig] the constructor reads. *)
Record AccessoryConfig := {
  cfg_name : string;
  cfg_sensor : string;
  cfg_apiReadKey : option string;
  cfg_key : option string;
  cfg_localIPAddress : option string;
  cfg_averages : string;
  cfg_conversion : string;
  cfg_aqiInsteadOfDensity : option bool;
  cfg_verboseLogging : bool;
  cfg_updateIntervalSecs : option Z;
}.

(** Field initialisation of the constructor, before its first [update]. *)
Definition construct (config : AccessoryConfig) : PurpleAirSensor :=
  {| name := cfg_name config; sensor := cfg_sensor config;
     apiReadKey := cfg_apiReadKey config; key := cfg_key config;
     localIPAddress := cfg_localIPAddress config;
     averages := cfg_averages config; conversion := cfg_conversion config;
     aqiInsteadOfDensity :=
       match cfg_aqiInsteadOfDensity config with
       | Some true => true
       | _ => false
       end;
     verboseLogging := cfg_verboseLogging config;
     updateIntervalMs :=
       match cfg_updateIntervalSecs config with
       | Some secs =>
           if secs =? 0 then DEFAULT_UPDATE_INTERVAL_SECS * 1000
           else secs * 1000
       | None => DEFAULT_UPDATE_INTERVAL_SECS * 1000
       end;
     lastReading := None |}.

(** ** lastReadingActive *)

(** [get lastReadingActive()], with [Date.now()] read as [now]. *)
Definition lastReadingActive (s : PurpleAirSensor) (now : Z) : bool :=
  match lastReading s with
  | Some r => updateTimeMs r >? now - updateIntervalMs s
  | None => false
  end.

(** ** The outside world *)

(** The request handed to [axiosInstance.get(url, request_config)]:
    the URL, the headers [update] put on the axios instance, and the
    [read_key] entry of [request_config.params] ([None] is [undefined]). *)
Record Request := {
  url : string;
  headers : list (string * string);
  read_key : option string;
}.

(** What the awaited [get] does: resolve with [resp.data], or reject with an
    [AxiosError] whose [response] (when one was received) carries a body. *)
Inductive FetchOutcome :=
| Resolved (data : Json)
| Rejected (response : option Json) (message : string).

(** Modelled from the spec: what [parsePurpleAirJson] of ./SensorReading
    throws, a parse error naming the missing field. *)
Inductive ParseError :=
| missingField (detail : string).

(** Everything the [try] block of [update] can throw. *)
Inductive Exn :=
| AxiosError (response : option Json) (message : string)
| NoSensorFound (sensor_id : string) (read_key : option string)
| TypeError
| ParseFailure (e : ParseError).

(** The text after the colon of the error log line: the stringified response
    body for an [AxiosError] with a response, the error itself otherwise. *)
Inductive ErrDetail :=
| ResponseBody (data : Json)
| ErrText (e : Exn).

Inductive LogLevel := LInfo | LDebug | LError.

Inductive LogMsg :=
| MsgSkipping (elapsedMs : Z)
| MsgFetching (req_url : string) (params_read_key : option string)
| MsgReceived (r : SensorReading) (sensor_id : string)
| MsgErrorFetching (req_url : string) (detail : ErrDetail).

Inductive ServiceId :=
| airQualityService
| temperatureService
| humidityService.

Inductive Characteristic :=
| AirQuality
| PM2_5Density
| CurrentTemperature
| CurrentRelativeHumidity
| VOCDensity.

Inductive Event :=
| Log (lvl : LogLevel) (msg : LogMsg)
| HttpGet (req : Request)
| SetCharacteristic (svc : ServiceId) (c : Characteristic) (v : number)
| Callback (value : bool).

(** [this.log(msg)]: info when verbose logging is on, debug otherwise. *)
Definition log (s : PurpleAirSensor) (msg : LogMsg) : Event :=
  if verboseLogging s then Log LInfo msg else Log LDebug msg.

(** ** updateHomeKit *)

Definition updateHomeKit (s : PurpleAirSensor) (aqiInsteadOfDensity : bool)
  : list Event :=
  match lastReading s with
  | Some r =>
      [SetCharacteristic airQualityService AirQuality
         (airQualityHomekitReading r)]
      ++ (if aqiInsteadOfDensity
          then [SetCharacteristic airQualityService PM2_5Density (aqi r)]
          else [SetCharacteristic airQualityService PM2_5Density (pm25 r)])
      ++ match temperature r with
         | Some t =>
             if truthy_number t
             then [SetCharacteristic temperatureService CurrentTemperature t]
             else []
         | None => []
         end
      ++ [SetCharacteristic humidityService CurrentRelativeHumidity
            (humidity r)]
      ++ match voc r with
         | Some v =>
             if truthy_number v
             then [SetCharacteristic airQualityService VOCDensity v]
             else []
         | None => []
         end
  | None => []
  end.

(** ** update *)

(** The request [update] prepares before the rate guard. *)
Definition usesLocalSensor (s : PurpleAirSensor) : bool :=
  match localIPAddress s with
  | Some _ => true
  | None => false
  end.

Definition request_url (s : PurpleAirSensor) : string :=
  match localIPAddress s with
  | Some ip => "http://" +:+ ip +:+ "/json"
  | None => "https://api.purpleair.com/v1/sensors" +:+ "/" +:+ sensor s
  end.

Definition request_headers (s : PurpleAirSensor) : list (string * string) :=
  match localIPAddress s with
  | Some _ => []
  | None =>
      match apiReadKey s with
      | Some k => [("X-API-Key", k)]
      | None => []
      end
  end.

Definition build_request (s : PurpleAirSensor) : Request :=
  {| url := request_url s;
     headers := request_headers s;
     read_key := key s |}.

(** The rate guard: [true] means this call returns without fetching. *)
Definition rate_guard (s : PurpleAirSensor) (now : Z) : bool :=
  match lastReading s with
  | Some r => updateTimeMs r >? now - MIN_UPDATE_INTERVAL_MS
  | None => false
  end.

(** [update] up to its [await]: either the skip (one log line, nothing
    pending) or the request going out (the interceptor's log line, then the
    GET), which stays pending until the transport answers.  [Date.now()] is
    read as [now] in the guard and in the skip line alike. *)
Definition update_start (s : PurpleAirSensor) (now : Z)
  : list Event * option Request :=
  match lastReading s with
  | Some r =>
      if updateTimeMs r >? now - MIN_UPDATE_INTERVAL_MS
      then ([log s (MsgSkipping (now - updateTimeMs r))], None)
      else ([log s (MsgFetching (request_url s) (key s));
             HttpGet (build_request s)], Some (build_request s))
  | None =>
      ([log s (MsgFetching (request_url s) (key s));
        HttpGet (build_request s)], Some (build_request s))
  end.

(** The error monad of the [try] block: [inl] is a thrown exception. *)
Definition Try (A : Type) : Type := Exn + A.

Definition throw {A : Type} (e : Exn) : Try A := inl e.

Definition try_bind {A B : Type} (m : Try A) (f : A -> Try B) : Try B :=
  match m with
  | inl e => inl e
  | inr a => f a
  end.

Notation "'do' x <- m ; k" := (try_bind m (fun x => k))
  (at level 10, x name, m at level 100, k at level 200).

(** [await axiosInstance.get(...)], returning [resp.data]. *)
Definition await_get (outcome : FetchOutcome) : Try Json :=
  match outcome with
  | Resolved data => inr data
  | Rejected response message => throw (AxiosError response message)
  end.

(** [if (!usesLocalSensor && resp.data.sensor === undefined) throw ...];
    the property is only read for the cloud source. *)
Definition check_sensor (s : PurpleAirSensor) (data : Json) : Try unit :=
  if usesLocalSensor s then inr tt
  else match js_get "sensor" data with
       | None => throw TypeError
       | Some None => throw (NoSensorFound (sensor s) (key s))
       | Some (Some _) => inr tt
       end.

(** One firing of the [setInterval] callback: when it starts, what the
    transport answers if a request goes out, and when that answer arrives. *)
Record Tick := {
  tick_now : Z;
  tick_outcome : FetchOutcome;
  tick_done : Z;
}.

Section Update.

(** [parsePurpleAirJson(data, averages, conversion, usesLocalSensor)] of
    ./SensorReading, with the clock it reads as a last argument. *)
Variable parsePurpleAirJson :
  Json -> string -> string -> bool -> Z -> ParseError + SensorReading.

Definition parse (s : PurpleAirSensor) (data : Json) (now : Z)
  : Try SensorReading :=
  match parsePurpleAirJson data (averages s) (conversion s)
          (usesLocalSensor s) now with
  | inl e => throw (ParseFailure e)
  | inr r => inr r
  end.

(** The [try] block from the point where the GET settles. *)
Definition update_try (s : PurpleAirSensor) (outcome : FetchOutcome)
    (now : Z) : Try (PurpleAirSensor * list Event) :=
  do data <- await_get outcome;
  do _ <- check_sensor s data;
  do r <- parse s data now;
  let s' := set_lastReading (Some r) s in
  inr (s', [log s' (MsgReceived r (sensor s'))]
           ++ updateHomeKit s' (aqiInsteadOfDensity s')).

(** The text logged for a caught error. *)
Definition error_detail (err : Exn) : ErrDetail :=
  match err with
  | AxiosError (Some body) _ => ResponseBody body
  | _ => ErrText err
  end.

(** The [catch] block. *)
Definition update_catch (s : PurpleAirSensor) (err : Exn)
  : PurpleAirSensor * list Event :=
  let s' := set_lastReading None s in
  (s', [Log LError (MsgErrorFetching (request_url s) (error_detail err))]
       ++ updateHomeKit s' (aqiInsteadOfDensity s')).

(** [update] from the [await] to its end. *)
Definition update_finish (s : PurpleAirSensor) (outcome : FetchOutcome)
    (now : Z) : PurpleAirSensor * list Event :=
  match update_try s outcome now with
  | inr done_ => done_
  | inl err => update_catch s err
  end.

(** One whole call of [update]: it starts at [now]; when a request goes
    out, the transport answers with [outcome] and the rest runs at
    [now']. *)
Definition update (s : PurpleAirSensor) (now : Z) (outcome : FetchOutcome)
    (now' : Z) : PurpleAirSensor * list Event :=
  match update_start s now with
  | (ev, None) => (s, ev)
  | (ev, Some _) =>
      let (s', ev') := update_finish s outcome now' in (s', ev ++ ev')
  end.

(** The recurring timer: each firing calls [update]. *)
Fixpoint run_timer (s : PurpleAirSensor) (ticks : list Tick)
  : PurpleAirSensor * list Event :=
  match ticks with
  | [] => (s, [])
  | t :: rest =>
      let (s1, ev1) :=
        update s (tick_now t) (tick_outcome t) (tick_done t) in
      let (s2, ev2) := run_timer s1 rest in
      (s2, ev1 ++ ev2)
  end.

End Update.

(** ** The StatusActive GET handlers *)

(** What a call of [update] has done when it returns to its caller, at its
    [await] or at the [return] of the skip: the skip line, or nothing. *)
Definition update_sync (s : PurpleAirSensor) (now : Z) : list Event :=
  match update_start s now with
  | (ev, None) => ev
  | (_, Some _) => []
  end.

(** What follows once the caller has gone on, for a request left pending:
    axios runs the request interceptor and the transport from later
    microtasks, so the interceptor's line and the GET come then. *)
Definition update_deferred (s : PurpleAirSensor) (now : Z) : list Event :=
  match update_start s now with
  | (_, None) => []
  | (ev, Some _) => ev
  end.

(** The handler registered on each of the three services: the events it
    causes, in the order they happen, and the request [update] left pending,
    if any.  [update] is called and not awaited, so the handler calls back
    as soon as the synchronous part of [update] returns, before a pending
    request goes out.  The clock is read twice: as [now] by the guard of
    [update], then as [now'] by [lastReadingActive]. *)
Definition statusActiveGet (s : PurpleAirSensor) (now now' : Z)
  : list Event * option Request :=
  match lastReading s with
  | Some _ =>
      (update_sync s now
       ++ [Callback (lastReadingActive s now')]
       ++ update_deferred s now,
       snd (update_start s now))
  | None => ([Callback false], None)
  end.

(** ** The HomeKit side *)

#[global] Instance ServiceId_eq_dec : EqDecision ServiceId.
Proof. solve_decision. Defined.

#[global] Instance Characteristic_eq_dec : EqDecision Characteristic.
Proof. solve_decision. Defined.

Definition ServiceId_to_nat (x : ServiceId) : nat :=
  match x with
  | airQualityService => 0
  | temperatureService => 1
  | humidityService => 2
  end.

Definition ServiceId_of_nat (n : nat) : ServiceId :=
  match n with
  | O => airQualityService
  | S O => temperatureService
  | _ => humidityService
  end.

Definition Characteristic_to_nat (x : Characteristic) : nat :=
  match x with
  | AirQuality => 0
  | PM2_5Density => 1
  | CurrentTemperature => 2
  | CurrentRelativeHumidity => 3
  | VOCDensity => 4
  end.

Definition Characteristic_of_nat (n : nat) : Characteristic :=
  match n with
  | 0%nat => AirQuality
  | 1%nat => PM2_5Density
  | 2%nat => CurrentTemperature
  | 3%nat => CurrentRelativeHumidity
  | _ => VOCDensity
  end.

#[global] Program Instance ServiceId_countable : Countable ServiceId :=
  inj_countable' ServiceId_to_nat ServiceId_of_nat _.
Next Obligation. by intros []. Qed.

#[global] Program Instance Characteristic_countable
  : Countable Characteristic :=
  inj_countable' Characteristic_to_nat Characteristic_of_nat _.
Next Obligation. by intros []. Qed.

(** The last value passed to [setCharacteristic], per service and
    characteristic.  What HomeKit then displays is not part of the model:
    the host rounds a value to the characteristic's step and clamps it to
    its range. *)
Abbreviation HomeKit := (gmap (ServiceId * Characteristic) number).

Definition apply_event (hk : HomeKit) (e : Event) : HomeKit :=
  match e with
  | SetCharacteristic svc c v => <[(svc, c) := v]> hk
  | _ => hk
  end.

Definition apply_events (hk : HomeKit) (evs : list Event) : HomeKit :=
  fold_left apply_event evs hk.

(** ** The unit converter: density to AQI *)

(** One row of the breakpoint table. *)
Record Bracket := {
  concLow : Q;
  concHigh : Q;
  aqiLow : Q;
  aqiHigh : Q;
}.

(** The interpolation line of a bracket, over the rationals. *)
Definition line (b : Bracket) (p : Q) : Q :=
  ((aqiHigh b - aqiLow b) / (concHigh b - concLow b) * (p - concLow b)
   + aqiLow b)%Q.

(** Modelled from the spec: the interpolation formula of [densityToAqi]
    (./SensorReading is not among the sources),
    [((aqiHigh - aqiLow) / (concHigh - concLow)) * (pm25 - concLow) + aqiLow].
    A bracket of zero width has no finite value ([None]). *)
Definition interpolate (b : Bracket) (p : Q) : option Q :=
  if Qeq_bool (concHigh b) (concLow b) then None else Some (line b p).

(** Modelled from the spec: the bracket lookup of [densityToAqi], a linear
    scan of the ordered table for the first bracket whose upper bound is not
    below [p]; above the top bracket the top bracket is kept. *)
Fixpoint bracket_of (b : Bracket) (rest : list Bracket) (p : Q) : Bracket :=
  match rest with
  | [] => b
  | b' :: rest' => if Qle_bool p (concHigh b) then b else bracket_of b' rest' p
  end.

(** Modelled from the spec: [densityToAqi] of ./SensorReading over a given
    breakpoint table.  An input below the lowest bracket is floored to that
    bracket's lower bound; [None] stands for a result that is not a finite
    number. *)
Definition densityToAqi_with (table : list Bracket) (p : Q) : option Q :=
  match table with
  | [] => None
  | lowest :: rest =>
      let p' := if Qle_bool (concLow lowest) p then p else concLow lowest in
      interpolate (bracket_of lowest rest p') p'
  end.

(** Modelled from the spec: the standard PM2.5 breakpoint table the spec's
    example refers to (12.3 ug/m3 gives an index of about 51). *)
Definition pm25Breakpoints : list Bracket :=
  [ {| concLow := 0; concHigh := 12; aqiLow := 0; aqiHigh := 50 |};
    {| concLow := 121 # 10; concHigh := 354 # 10;
       aqiLow := 51; aqiHigh := 100 |};
    {| concLow := 355 # 10; concHigh := 554 # 10;
       aqiLow := 101; aqiHigh := 150 |};
    {| concLow := 555 # 10; concHigh := 1504 # 10;
       aqiLow := 151; aqiHigh := 200 |};
    {| concLow := 1505 # 10; concHigh := 2504 # 10;
       aqiLow := 201; aqiHigh := 300 |};
    {| concLow := 2505 # 10; concHigh := 3504 # 10;
       aqiLow := 301; aqiHigh := 400 |};
    {| concLow := 3505 # 10; concHigh := 5004 # 10;
       aqiLow := 401; aqiHigh := 500 |} ]%Q.

Definition densityToAqi (p : Q) : option Q :=
  densityToAqi_with pm25Breakpoints p.

(** A bracket has positive width and a line that does not descend. *)
Definition bracket_ok (b : Bracket) : bool :=
  negb (Qle_bool (concHigh b) (concLow b)) && Qle_bool (aqiLow b) (aqiHigh b).

(** The brackets are ordered by upper bound, and where one ends the next
    one's line is not below it. *)
Fixpoint chain_ok (b : Bracket) (rest : list Bracket) : bool :=
  bracket_ok b
  && match rest with
     | [] => true
     | b' :: rest' =>
         Qle_bool (concHigh b) (concHigh b')
         && Qle_bool (line b (concHigh b)) (line b' (concHigh b))
         && chain_ok b' rest'
     end.

(** A well-formed table: it starts at density 0 with index 0. *)
Definition table_ok (table : list Bracket) : bool :=
  match table with
  | [] => false
  | lowest :: rest =>
      Qeq_bool (concLow lowest) 0 && Qeq_bool (aqiLow lowest) 0
      && chain_ok lowest rest
  end.

(** ** Sample instances, for evaluating the definitions *)

Definition sampleReading : SensorReading :=
  {| updateTimeMs := 1000000; pm25 := (123 # 10)%Q; aqi := 51%Q;
     airQualityHomekitReading := 2%Q; temperature := Some 21%Q;
     humidity := 45%Q; voc := None |}.

Definition cloudSensor : PurpleAirSensor :=
  {| name := "Air"; sensor := "12345"; apiReadKey := Some "APIKEY";
     key := Some "READKEY"; localIPAddress := None;
     averages := "realtime"; conversion := "None";
     aqiInsteadOfDensity := false; verboseLogging := false;
     updateIntervalMs := 300000; lastReading := None |}.

Definition localSensor : PurpleAirSensor :=
  {| name := "Air"; sensor := "12345"; apiReadKey := Some "APIKEY";
     key := Some "READKEY"; localIPAddress := Some "192.168.1.20";
     averages := "realtime"; conversion := "None";
     aqiInsteadOfDensity := false; verboseLogging := false;
     updateIntervalMs := 300000; lastReading := None |}.

(** A reading whose temperature and VOC density are exactly 0. *)
Definition zeroTemperatureReading : SensorReading :=
  {| updateTimeMs := 1000000; pm25 := (123 # 10)%Q; aqi := 51%Q;
     airQualityHomekitReading := 2%Q; temperature := Some 0%Q;
     humidity := 45%Q; voc := Some 0%Q |}.

(** A local-style payload: flat, with no [sensor] entry. *)
Definition samplePayload : Json :=
  JObj [("humidity", JNum 45); ("pm2_5_atm", JNum (123 # 10))].

(** A cloud-style payload: the data sits under [sensor]. *)
Definition sampleCloudPayload : Json :=
  JObj [("sensor", JObj [("humidity", JNum 45);
                         ("pm2.5", JNum (123 # 10));
                         ("temperature", JNum 21)])].

(** A stand-in for [parsePurpleAirJson] used only to evaluate [update] on
    concrete inputs: it looks for a [humidity] number (under [sensor] for the
    cloud source) and stamps the reading with the clock. *)
Definition sampleParser (data : Json) (averages conversion : string)
    (usesLocal : bool) (now : Z) : ParseError + SensorReading :=
  let body := if usesLocal then Some (Some data) else js_get "sensor" data in
  match body with
  | Some (Some d) =>
      match js_get "humidity" d with
      | Some (Some (JNum h)) =>
          inr {| updateTimeMs := now; pm25 := (123 # 10)%Q; aqi := 51%Q;
                 airQualityHomekitReading := 2%Q; temperature := None;
                 humidity := h; voc := None |}
      | _ => inl (missingField "humidity")
      end
  | _ => inl (missingField "sensor")
  end.

(** ** Reading traces *)

Definition is_HttpGet (e : Event) : bool :=
  match e with
  | HttpGet _ => true
  | _ => false
  end.

(** Writes of the PM2.5 density characteristic. *)
Definition is_density_write (e : Event) : bool :=
  match e with
  | SetCharacteristic airQualityService PM2_5Density _ => true
  | _ => false
  end.

Definition not_density_write (e : Event) : bool := negb (is_density_write e).



(** A trace event with the info/debug distinction of [this.log] erased;
    error lines keep their level. *)
Definition erase_level (e : Event) : Event :=
  match e with
  | Log LInfo m => Log LDebug m
  | _ => e
  end.

(** The characteristics [updateHomeKit] addresses, each with its service. *)
Definition written_keys : list (ServiceId * Characteristic) :=
  [ (airQualityService, AirQuality);
    (airQualityService, PM2_5Density);
    (temperatureService, CurrentTemperature);
    (humidityService, CurrentRelativeHumidity);
    (airQualityService, VOCDensity) ].

(** Another accessory on the same local device, set up for another cloud
    sensor and API key. *)
Definition otherLocalSensor : PurpleAirSensor :=
  {| name := "Porch"; sensor := "99999"; apiReadKey := None;
     key := Some "READKEY"; localIPAddress := Some "192.168.1.20";
     averages := "realtime"; conversion := "None";
     aqiInsteadOfDensity := true; verboseLogging := true;
     updateIntervalMs := 60000; lastReading := None |}.

(** A configuration with nothing optional set. *)
Definition sampleConfig : AccessoryConfig :=
  {| cfg_name := "Air"; cfg_sensor := "12345"; cfg_apiReadKey := None;
     cfg_key := None; cfg_localIPAddress := None;
     cfg_averages := "realtime"; cfg_conversion := "None";
     cfg_aqiInsteadOfDensity := None; cfg_verboseLogging := false;
     cfg_updateIntervalSecs := Some 10 |}.

(** * Properties *)

(** ** The rate guard and the start of [update] *)

Lemma rate_guard_true_iff (s : PurpleAirSensor) (now : Z) :
  rate_guard s now = true <->
  exists r, lastReading s = Some r
            /\ now - updateTimeMs r < MIN_UPDATE_INTERVAL_MS.
Proof.
  unfold rate_guard. destruct (lastReading s) as [r|].
  - rewrite Z.gtb_ltb, Z.ltb_lt. split.
    + intros H. exists r. split; [reflexivity | lia].
    + intros (r' & Hr & H). injection Hr as ->. lia.
  - split; [discriminate | intros (r & Hr & _); discriminate].
Qed.

Lemma update_start_skip (s : PurpleAirSensor) (r : SensorReading) (now : Z) :
  lastReading s = Some r ->
  now - updateTimeMs r < MIN_UPDATE_INTERVAL_MS ->
  update_start s now = ([log s (MsgSkipping (now - updateTimeMs r))], None).
Proof.
  intros Hr Hlt. unfold update_start. rewrite Hr.
  destruct (Z.gtb_spec (updateTimeMs r) (now - MIN_UPDATE_INTERVAL_MS));
    [reflexivity | lia].
Qed.

Lemma update_start_fetch (s : PurpleAirSensor) (now : Z) :
  rate_guard s now = false ->
  update_start s now =
    ([log s (MsgFetching (request_url s) (key s)); HttpGet (build_request s)],
     Some (build_request s)).
Proof.
  unfold rate_guard, update_start. destruct (lastReading s) as [r|].
  - intros ->. reflexivity.
  - reflexivity.
Qed.

Lemma log_not_HttpGet (s : PurpleAirSensor) (m : LogMsg) (req : Request) :
  log s m <> HttpGet req.
Proof. unfold log. destruct (verboseLogging s); discriminate. Qed.

(** ** Construction *)

Lemma construct_lastReading (config : AccessoryConfig) :
  lastReading (construct config) = None.
Proof. reflexivity. Qed.

(** The [update] call that ends the constructor always sends a request. *)
Lemma construct_first_update_fetches (config : AccessoryConfig) (now : Z) :
  snd (update_start (construct config) now)
  = Some (build_request (construct config)).
Proof.
  rewrite update_start_fetch; [reflexivity |].
  unfold rate_guard. rewrite construct_lastReading. reflexivity.
Qed.

Lemma construct_updateIntervalMs_default (config : AccessoryConfig) :
  cfg_updateIntervalSecs config = None ->
  updateIntervalMs (construct config) = 300000.
Proof. unfold construct. cbn. intros ->. reflexivity. Qed.

(** ** Freshness *)

(** C1: with a reading present, [lastReadingActive] is true exactly when
    [now - lastReading.updateTimeMs < updateIntervalMs]; with no reading it is
    false. *)
Theorem lastReadingActive_spec (s : PurpleAirSensor) (now : Z) :
  (forall r, lastReading s = Some r ->
     (lastReadingActive s now = true <->
      now - updateTimeMs r < updateIntervalMs s))
  /\ (lastReading s = None -> lastReadingActive s now = false).
Proof.
  unfold lastReadingActive. split.
  - intros r ->. rewrite Z.gtb_ltb, Z.ltb_lt. lia.
  - intros ->. reflexivity.
Qed.

Lemma lastReadingActive_spec_witness :
  (lastReadingActive (set_lastReading (Some sampleReading) cloudSensor)
     1299999 = true
   <-> 1299999 - updateTimeMs sampleReading
       < updateIntervalMs (set_lastReading (Some sampleReading) cloudSensor))
  /\ lastReadingActive (set_lastReading (Some sampleReading) cloudSensor)
       1300000 = false
  /\ lastReadingActive cloudSensor 0 = false.
Proof.
  split; [| split].
  - apply (lastReadingActive_spec
             (set_lastReading (Some sampleReading) cloudSensor) 1299999).
    reflexivity.
  - reflexivity.
  - apply (lastReadingActive_spec cloudSensor 0). reflexivity.
Defined.

Section UpdateProperties.

Variable parsePurpleAirJson :
  Json -> string -> string -> bool -> Z -> ParseError + SensorReading.

(** ** Outcomes of the second half of [update] *)

Lemma update_finish_failure (s : PurpleAirSensor) (outcome : FetchOutcome)
    (now : Z) (e : Exn) :
  update_try parsePurpleAirJson s outcome now = inl e ->
  update_finish parsePurpleAirJson s outcome now = update_catch s e.
Proof. unfold update_finish. intros ->. reflexivity. Qed.

Lemma update_finish_success (s : PurpleAirSensor) (outcome : FetchOutcome)
    (now : Z) (res : PurpleAirSensor * list Event) :
  update_try parsePurpleAirJson s outcome now = inr res ->
  update_finish parsePurpleAirJson s outcome now = res.
Proof. unfold update_finish. intros ->. reflexivity. Qed.

Lemma update_fetching (s : PurpleAirSensor) (now : Z)
    (outcome : FetchOutcome) (now' : Z) :
  rate_guard s now = false ->
  update parsePurpleAirJson s now outcome now' =
    (fst (update_finish parsePurpleAirJson s outcome now'),
     [log s (MsgFetching (request_url s) (key s));
      HttpGet (build_request s)]
     ++ snd (update_finish parsePurpleAirJson s outcome now')).
Proof.
  intros Hg. unfold update. rewrite (update_start_fetch s now Hg).
  destruct (update_finish parsePurpleAirJson s outcome now'). reflexivity.
Qed.

(** ** The skip *)

(** C2: when a reading exists and [now - lastReading.updateTimeMs] is below
    the fixed 30000 ms spacing, [update] only logs the skip: no request
    goes out and the instance is unchanged. *)
Theorem update_skips_within_min_interval (s : PurpleAirSensor)
    (r : SensorReading) (now : Z) (outcome : FetchOutcome) (now' : Z) :
  lastReading s = Some r ->
  now - updateTimeMs r < MIN_UPDATE_INTERVAL_MS ->
  MIN_UPDATE_INTERVAL_MS = 30000
  /\ update parsePurpleAirJson s now outcome now'
     = (s, [log s (MsgSkipping (now - updateTimeMs r))])
  /\ snd (update_start s now) = None
  /\ forall req,
       ~ In (HttpGet req) (snd (update parsePurpleAirJson s now outcome now')).
Proof.
  intros Hr Hlt.
  assert (Hu : update parsePurpleAirJson s now outcome now'
               = (s, [log s (MsgSkipping (now - updateTimeMs r))])).
  { unfold update. rewrite (update_start_skip s r now Hr Hlt).
    reflexivity. }
  split; [reflexivity | split; [exact Hu | split]].
  - rewrite (update_start_skip s r now Hr Hlt). reflexivity.
  - intros req. rewrite Hu. simpl. intros [H | []].
    exact (log_not_HttpGet _ _ _ H).
Qed.

(** ** No reading, no skip *)

(** C9: when [lastReading] is absent the rate guard does not apply:
    whatever the time, [update] sends its request. *)
Theorem update_fetches_when_lastReading_absent (s : PurpleAirSensor)
    (now : Z) (outcome : FetchOutcome) (now' : Z) :
  lastReading s = None ->
  rate_guard s now = false
  /\ update_start s now =
       ([log s (MsgFetching (request_url s) (key s));
         HttpGet (build_request s)], Some (build_request s))
  /\ In (HttpGet (build_request s))
       (snd (update parsePurpleAirJson s now outcome now')).
Proof.
  intros Hr.
  assert (Hg : rate_guard s now = false).
  { unfold rate_guard. rewrite Hr. reflexivity. }
  split; [exact Hg | split].
  - apply update_start_fetch, Hg.
  - rewrite (update_fetching s now outcome now' Hg). simpl. auto.
Qed.

(** ** Failed attempts *)

Lemma update_catch_lastReading (s : PurpleAirSensor) (e : Exn) :
  lastReading (fst (update_catch s e)) = None.
Proof. reflexivity. Qed.





(** ** The reporting preference *)

Lemma updateHomeKit_density_write (s : PurpleAirSensor) (r : SensorReading)
    (flag : bool) :
  lastReading s = Some r ->
  List.filter is_density_write (updateHomeKit s flag)
  = [SetCharacteristic airQualityService PM2_5Density
       (if flag then aqi r else pm25 r)].
Proof.
  intros Hr. unfold updateHomeKit. rewrite Hr.
  destruct flag, (temperature r) as [t|], (voc r) as [v|];
    try destruct (truthy_number t); try destruct (truthy_number v);
    reflexivity.
Qed.

Lemma updateHomeKit_other_writes (s : PurpleAirSensor) (flag : bool) :
  List.filter not_density_write (updateHomeKit s flag)
  = List.filter not_density_write (updateHomeKit s false).
Proof.
  unfold updateHomeKit. destruct (lastReading s) as [r|]; [| reflexivity].
  destruct flag, (temperature r) as [t|], (voc r) as [v|];
    try destruct (truthy_number t); try destruct (truthy_number v);
    reflexivity.
Qed.

(** [update] on an instance built with another preference: the same
    instance up to the preference, the same trace up to density writes. *)
Lemma update_with_aqiInsteadOfDensity (b : bool) (s : PurpleAirSensor)
    (now : Z) (outcome : FetchOutcome) (now' : Z) :
  fst (update parsePurpleAirJson (with_aqiInsteadOfDensity b s)
         now outcome now')
  = with_aqiInsteadOfDensity b
      (fst (update parsePurpleAirJson
              (with_aqiInsteadOfDensity false s) now outcome now'))
  /\ List.filter not_density_write
       (snd (update parsePurpleAirJson (with_aqiInsteadOfDensity b s)
               now outcome now'))
     = List.filter not_density_write
         (snd (update parsePurpleAirJson
                 (with_aqiInsteadOfDensity false s) now outcome now')).
Proof.
  assert (Hs : forall b', update_start (with_aqiInsteadOfDensity b' s) now
                          = update_start s now) by reflexivity.
  unfold update. rewrite !Hs.
  destruct (update_start s now) as [ev [req|]]; [| split; reflexivity].
  assert (Hl : forall b', usesLocalSensor (with_aqiInsteadOfDensity b' s)
                          = usesLocalSensor s) by reflexivity.
  assert (Hf : forall m l,
             List.filter not_density_write (log s m :: l)
             = log s m :: List.filter not_density_write l).
  { intros m l. unfold log. destruct (verboseLogging s); reflexivity. }
  unfold update_finish, update_try, check_sensor, parse, await_get.
  rewrite !Hl.
  destruct outcome as [data | response message];
    [| split; reflexivity].
  cbn [try_bind].
  destruct (usesLocalSensor s), (js_get "sensor" data) as [[j|]|];
    cbn [try_bind throw]; try (split; reflexivity);
    (destruct (parsePurpleAirJson data _ _ _ now') as [pe|r];
     cbn [try_bind throw]; [split; reflexivity |]);
    (split; [reflexivity |]);
    cbn [snd]; rewrite !List.filter_app; f_equal;
    cbn [app]; change (log (set_lastReading _ _)) with (log s);
    rewrite !Hf; f_equal;
    apply (updateHomeKit_other_writes
             (set_lastReading (Some r) (with_aqiInsteadOfDensity false s))).
Qed.

(** After an attempt that stored a reading, the one density write of its
    trace carries the field the instance's preference selects. *)
Lemma update_finish_density_write (s : PurpleAirSensor)
    (outcome : FetchOutcome) (now : Z) (r : SensorReading) :
  lastReading (fst (update_finish parsePurpleAirJson s outcome now))
  = Some r ->
  List.filter is_density_write
    (snd (update_finish parsePurpleAirJson s outcome now))
  = [SetCharacteristic airQualityService PM2_5Density
       (if aqiInsteadOfDensity s then aqi r else pm25 r)].
Proof.
  assert (Hf : forall x m l,
             List.filter is_density_write (log x m :: l)
             = List.filter is_density_write l).
  { intros x m l. unfold log. destruct (verboseLogging x); reflexivity. }
  unfold update_finish.
  destruct (update_try parsePurpleAirJson s outcome now)
    as [e|[s' ev]] eqn:Ht; [discriminate |].
  revert Ht. unfold update_try, check_sensor, parse, await_get.
  destruct outcome as [data | response message]; [| discriminate].
  cbn [try_bind].
  destruct (usesLocalSensor s), (js_get "sensor" data) as [[j|]|];
    cbn [try_bind throw]; try discriminate;
    (destruct (parsePurpleAirJson data _ _ _ now) as [pe|r'];
     cbn [try_bind throw]; [discriminate |]);
    intros [= <- <-]; intros [= ->]; cbn [snd app];
    change (aqiInsteadOfDensity (set_lastReading _ s))
      with (aqiInsteadOfDensity s);
    rewrite Hf;
    apply updateHomeKit_density_write; reflexivity.
Qed.

(** C7: the [aqiInsteadOfDensity] preference does not reach the stored
    reading: [update] leaves the same [lastReading] for both settings and
    the same trace up to the PM2.5 density write, which carries [aqi] when
    the preference is on and [pm25] when it is off. *)
Theorem aqiInsteadOfDensity_only_selects_density (s : PurpleAirSensor)
    (now : Z) (outcome : FetchOutcome) (now' : Z) :
  lastReading (fst (update parsePurpleAirJson
                      (with_aqiInsteadOfDensity true s) now outcome now'))
  = lastReading (fst (update parsePurpleAirJson
                        (with_aqiInsteadOfDensity false s) now outcome now'))
  /\ List.filter not_density_write
       (snd (update parsePurpleAirJson (with_aqiInsteadOfDensity true s)
               now outcome now'))
     = List.filter not_density_write
         (snd (update parsePurpleAirJson (with_aqiInsteadOfDensity false s)
                 now outcome now'))
  /\ (forall r flag, lastReading s = Some r ->
        List.filter is_density_write (updateHomeKit s flag)
        = [SetCharacteristic airQualityService PM2_5Density
             (if flag then aqi r else pm25 r)])
  /\ (forall r,
        lastReading (fst (update_finish parsePurpleAirJson s outcome now'))
        = Some r ->
        List.filter is_density_write
          (snd (update_finish parsePurpleAirJson s outcome now'))
        = [SetCharacteristic airQualityService PM2_5Density
             (if aqiInsteadOfDensity s then aqi r else pm25 r)]).
Proof.
  destruct (update_with_aqiInsteadOfDensity true s now outcome now')
    as [Hst Hev].
  split; [rewrite Hst; reflexivity | split; [exact Hev | split]].
  - intros r flag Hr. apply updateHomeKit_density_write, Hr.
  - intros r. apply update_finish_density_write.
Qed.

End UpdateProperties.

Lemma update_skips_within_min_interval_witness :
  update sampleParser (set_lastReading (Some sampleReading) cloudSensor)
    1029999 (Resolved sampleCloudPayload) 1030100
  = (set_lastReading (Some sampleReading) cloudSensor,
     [Log LDebug (MsgSkipping 29999)]).
Proof.
  exact (proj1 (proj2 (update_skips_within_min_interval sampleParser
                         (set_lastReading (Some sampleReading) cloudSensor)
                         sampleReading 1029999 (Resolved sampleCloudPayload)
                         1030100 eq_refl eq_refl))).
Defined.

Lemma update_fetches_when_lastReading_absent_witness :
  In (HttpGet (build_request cloudSensor))
    (snd (update sampleParser
            (fst (update sampleParser cloudSensor 0
                    (Rejected None "timeout of 1000ms exceeded") 1000))
            1001 (Resolved sampleCloudPayload) 1200)).
Proof.
  exact (proj2 (proj2 (update_fetches_when_lastReading_absent sampleParser
                         (fst (update sampleParser cloudSensor 0
                                 (Rejected None "timeout of 1000ms exceeded")
                                 1000))
                         1001 (Resolved sampleCloudPayload) 1200 eq_refl))).
Defined.



Lemma aqiInsteadOfDensity_only_selects_density_witness :
  lastReading
    (fst (update sampleParser (with_aqiInsteadOfDensity true cloudSensor)
            0 (Resolved sampleCloudPayload) 100))
  = lastReading
      (fst (update sampleParser (with_aqiInsteadOfDensity false cloudSensor)
              0 (Resolved sampleCloudPayload) 100))
  /\ List.filter is_density_write
       (updateHomeKit (set_lastReading (Some sampleReading) cloudSensor) true)
     = [SetCharacteristic airQualityService PM2_5Density 51%Q].
Proof.
  split.
  - exact (proj1 (aqiInsteadOfDensity_only_selects_density sampleParser
                    cloudSensor 0 (Resolved sampleCloudPayload) 100)).
  - exact (proj1 (proj2 (proj2 (aqiInsteadOfDensity_only_selects_density
                                  sampleParser
                                  (set_lastReading (Some sampleReading)
                                     cloudSensor)
                                  0 (Resolved sampleCloudPayload) 100)))
             sampleReading true eq_refl).
Defined.

(** ** The request *)

Lemma request_url_cloud (s : PurpleAirSensor) :
  localIPAddress s = None ->
  request_url s = "https://api.purpleair.com/v1/sensors/" +:+ sensor s.
Proof. unfold request_url. intros ->. reflexivity. Qed.

(** C4, as the code has it: with a local IP address the GET goes to
    [http://<ip>/json] and no API key header is set; otherwise it goes to the
    cloud path ending in the sensor identifier, with an [X-API-Key] header
    exactly when [apiReadKey] is configured.  For both sources the [read_key]
    parameter is the configured [key] (absent when [key] is), and this is the
    request [update] sends whenever the rate guard lets it through. *)
Theorem build_request_by_source (s : PurpleAirSensor) :
  (forall ip, localIPAddress s = Some ip ->
     url (build_request s) = "http://" +:+ ip +:+ "/json"
     /\ headers (build_request s) = [])
  /\ (localIPAddress s = None ->
      url (build_request s)
      = "https://api.purpleair.com/v1/sensors/" +:+ sensor s
      /\ (forall k, apiReadKey s = Some k ->
            headers (build_request s) = [("X-API-Key", k)])
      /\ (apiReadKey s = None -> headers (build_request s) = []))
  /\ read_key (build_request s) = key s
  /\ (forall now, rate_guard s now = false ->
        snd (update_start s now) = Some (build_request s)
        /\ List.filter is_HttpGet (fst (update_start s now))
           = [HttpGet (build_request s)]).
Proof.
  split; [| split; [| split]].
  - intros ip Hip. unfold build_request, request_url, request_headers.
    rewrite Hip. split; reflexivity.
  - intros Hip. split; [exact (request_url_cloud s Hip) |].
    unfold build_request, request_headers. rewrite Hip. cbn.
    split; [intros k -> | intros ->]; reflexivity.
  - reflexivity.
  - intros now Hg. rewrite (update_start_fetch s now Hg).
    split; [reflexivity |].
    unfold log. destruct (verboseLogging s); reflexivity.
Qed.

Lemma build_request_by_source_witness :
  (url (build_request localSensor) = "http://192.168.1.20/json"
   /\ headers (build_request localSensor) = [])
  /\ (url (build_request cloudSensor)
      = "https://api.purpleair.com/v1/sensors/12345"
      /\ headers (build_request cloudSensor) = [("X-API-Key", "APIKEY")])
  /\ read_key (build_request localSensor) = Some "READKEY".
Proof.
  split; [| split].
  - apply (proj1 (build_request_by_source localSensor) "192.168.1.20").
    reflexivity.
  - destruct (proj1 (proj2 (build_request_by_source cloudSensor)) eq_refl)
      as (Hurl & Hkey & _).
    split; [exact Hurl | exact (Hkey "APIKEY" eq_refl)].
  - exact (proj1 (proj2 (proj2 (build_request_by_source localSensor)))).
Defined.

(** C4 as stated fails: a local-source request still carries the configured
    read key as its [read_key] parameter. *)
Lemma local_request_carries_read_key :
  localIPAddress localSensor = Some "192.168.1.20"
  /\ key localSensor = Some "READKEY"
  /\ read_key (build_request localSensor) = Some "READKEY"
  /\ ~ (forall s ip, localIPAddress s = Some ip ->
          headers (build_request s) = []
          /\ read_key (build_request s) = None).
Proof.
  split; [reflexivity | split; [reflexivity | split; [reflexivity |]]].
  intros H. destruct (H localSensor "192.168.1.20" eq_refl) as [_ Hk].
  discriminate Hk.
Qed.

(** ** The StatusActive handlers *)

(** C6, as the code has it: the handler calls [update] (rate guard
    included) only when a reading is cached; with no cached reading it
    answers [false] and starts nothing.  The answer is [lastReadingActive]
    of the cached reading, and it is given as soon as the synchronous part
    of [update] returns: after the skip line when the guard skips, before
    the request goes out otherwise.  So a request goes out exactly when a
    reading exists and is at least the minimum spacing old. *)
Theorem statusActiveGet_polls_only_with_reading (s : PurpleAirSensor)
    (now now' : Z) :
  (lastReading s = None ->
   statusActiveGet s now now' = ([Callback false], None))
  /\ (forall r, lastReading s = Some r ->
        now - updateTimeMs r < MIN_UPDATE_INTERVAL_MS ->
        statusActiveGet s now now'
        = ([log s (MsgSkipping (now - updateTimeMs r));
            Callback (lastReadingActive s now')], None))
  /\ (forall r, lastReading s = Some r ->
        MIN_UPDATE_INTERVAL_MS <= now - updateTimeMs r ->
        statusActiveGet s now now'
        = ([Callback (lastReadingActive s now');
            log s (MsgFetching (request_url s) (key s));
            HttpGet (build_request s)],
           Some (build_request s)))
  /\ ((exists req, In (HttpGet req) (fst (statusActiveGet s now now')))
      <-> exists r, lastReading s = Some r
                    /\ MIN_UPDATE_INTERVAL_MS <= now - updateTimeMs r)
  /\ In (Callback (lastReadingActive s now'))
       (fst (statusActiveGet s now now')).
Proof.
  assert (Hskip : forall r, lastReading s = Some r ->
            now - updateTimeMs r < MIN_UPDATE_INTERVAL_MS ->
            statusActiveGet s now now'
            = ([log s (MsgSkipping (now - updateTimeMs r));
                Callback (lastReadingActive s now')], None)).
  { intros r Hr Hlt. unfold statusActiveGet, update_sync, update_deferred.
    rewrite Hr, (update_start_skip s r now Hr Hlt). reflexivity. }
  assert (Hfetch : forall r, lastReading s = Some r ->
            MIN_UPDATE_INTERVAL_MS <= now - updateTimeMs r ->
            statusActiveGet s now now'
            = ([Callback (lastReadingActive s now');
                log s (MsgFetching (request_url s) (key s));
                HttpGet (build_request s)],
               Some (build_request s))).
  { intros r Hr Hge. unfold statusActiveGet, update_sync, update_deferred.
    rewrite Hr, update_start_fetch; [reflexivity |].
    unfold rate_guard. rewrite Hr, Z.gtb_ltb. apply Z.ltb_ge. lia. }
  assert (Hnone : lastReading s = None ->
            statusActiveGet s now now' = ([Callback false], None)).
  { intros Hr. unfold statusActiveGet. rewrite Hr. reflexivity. }
  split; [exact Hnone | split; [exact Hskip | split; [exact Hfetch |]]].
  destruct (lastReading s) as [r|] eqn:Hr.
  - destruct (Z.lt_ge_cases (now - updateTimeMs r) MIN_UPDATE_INTERVAL_MS)
      as [Hlt | Hge].
    + rewrite (Hskip r eq_refl Hlt). cbn [fst]. split.
      * split.
        -- intros (req & [H | [H | []]]); [| discriminate H].
           destruct (log_not_HttpGet _ _ _ H).
        -- intros (r' & [= <-] & Hle). lia.
      * right. left. reflexivity.
    + rewrite (Hfetch r eq_refl Hge). cbn [fst]. split.
      * split; [intros _; exists r; split; [reflexivity | exact Hge] |].
        intros _. exists (build_request s). right. right. left. reflexivity.
      * left. reflexivity.
  - rewrite (Hnone eq_refl). cbn [fst]. split.
    + split.
      * intros (req & [H | []]). discriminate H.
      * intros (r & H & _). discriminate H.
    + unfold lastReadingActive. rewrite Hr. left. reflexivity.
Qed.

Lemma statusActiveGet_polls_only_with_reading_witness :
  statusActiveGet cloudSensor 1000 1001 = ([Callback false], None)
  /\ statusActiveGet (set_lastReading (Some sampleReading) cloudSensor)
       1029999 1030000
     = ([Log LDebug (MsgSkipping 29999); Callback true], None)
  /\ statusActiveGet (set_lastReading (Some sampleReading) cloudSensor)
       1030000 1030001
     = ([Callback true;
         Log LDebug
           (MsgFetching "https://api.purpleair.com/v1/sensors/12345"
              (Some "READKEY"));
         HttpGet (build_request cloudSensor)],
        Some (build_request cloudSensor)).
Proof.
  split; [| split].
  - apply (proj1 (statusActiveGet_polls_only_with_reading cloudSensor
                    1000 1001)).
    reflexivity.
  - apply (proj1 (proj2 (statusActiveGet_polls_only_with_reading
                           (set_lastReading (Some sampleReading) cloudSensor)
                           1029999 1030000)) sampleReading);
      reflexivity.
  - apply (proj1 (proj2 (proj2 (statusActiveGet_polls_only_with_reading
                                  (set_lastReading (Some sampleReading)
                                     cloudSensor)
                                  1030000 1030001))) sampleReading);
      [reflexivity | discriminate].
Defined.

(** C6 as stated fails: with no cached reading the handler starts no poll,
    although [update] itself would send a request at that moment. *)
Lemma statusActiveGet_absent_starts_no_poll :
  lastReading cloudSensor = None
  /\ rate_guard cloudSensor 1000 = false
  /\ snd (update_start cloudSensor 1000) = Some (build_request cloudSensor)
  /\ statusActiveGet cloudSensor 1000 1001 = ([Callback false], None)
  /\ ~ (exists req,
         In (HttpGet req) (fst (statusActiveGet cloudSensor 1000 1001))).
Proof.
  repeat split.
  intros (req & [H | []]). discriminate H.
Qed.

(** ** The missing-sensor check *)

(** A body with no sensor record: anything but an object with a [sensor]
    entry. *)
Lemma js_get_without_sensor (data : Json) :
  (forall fields, data = JObj fields -> assoc "sensor" fields = None) ->
  js_get "sensor" data = match data with
                         | JNull => None
                         | _ => Some None
                         end.
Proof.
  intros Hf. destruct data as [| b | q | str | items | fields];
    try reflexivity.
  cbn. rewrite (Hf fields eq_refl). reflexivity.
Qed.

(** What the [try] block throws on a cloud response with no sensor record,
    whatever the parser. *)
Lemma update_try_cloud_without_sensor
    (parser :
       Json -> string -> string -> bool -> Z -> ParseError + SensorReading)
    (s : PurpleAirSensor) (data : Json) (now : Z) :
  localIPAddress s = None ->
  (forall fields, data = JObj fields -> assoc "sensor" fields = None) ->
  update_try parser s (Resolved data) now
  = inl match data with
        | JNull => TypeError
        | _ => NoSensorFound (sensor s) (key s)
        end.
Proof.
  intros Hip Hf. unfold update_try, await_get. cbn [try_bind].
  unfold check_sensor, usesLocalSensor.
  rewrite Hip, (js_get_without_sensor data Hf).
  destruct data; reflexivity.
Qed.

(** C5, on the code: a cloud response with no sensor record always fails
    the attempt before the parser is reached (the outcome is the same for
    every parser, also one that would reject the payload, and it is never a
    parse failure) and clears [lastReading]; the local source is not
    checked, the payload goes to the parser.  The error is the
    no-sensor-found one for every body but [null]: reading [sensor] off a
    [null] body throws a TypeError instead. *)
Theorem cloud_response_without_sensor
    (parser parser' :
       Json -> string -> string -> bool -> Z -> ParseError + SensorReading)
    (s : PurpleAirSensor) (data : Json) (now : Z) :
  localIPAddress s = None ->
  (forall fields, data = JObj fields -> assoc "sensor" fields = None) ->
  (data <> JNull ->
   update_try parser s (Resolved data) now
   = inl (NoSensorFound (sensor s) (key s)))
  /\ (data = JNull ->
      update_try parser s (Resolved data) now = inl TypeError)
  /\ (forall pe, update_try parser s (Resolved data) now
                 <> inl (ParseFailure pe))
  /\ update_finish parser s (Resolved data) now
     = update_finish parser' s (Resolved data) now
  /\ lastReading (fst (update_finish parser s (Resolved data) now)) = None
  /\ (forall s' ip r,
        localIPAddress s' = Some ip ->
        parser data (averages s') (conversion s') true now = inr r ->
        lastReading (fst (update_finish parser s' (Resolved data) now))
        = Some r).
Proof.
  intros Hip Hf.
  pose proof (fun p => update_try_cloud_without_sensor p s data now Hip Hf)
    as Ht.
  split; [| split; [| split; [| split; [| split]]]].
  - intros Hn. rewrite Ht. destruct data; try reflexivity.
    destruct (Hn eq_refl).
  - intros ->. apply Ht.
  - intros pe. rewrite Ht. destruct data; discriminate.
  - rewrite (update_finish_failure parser s _ now _ (Ht parser)),
      (update_finish_failure parser' s _ now _ (Ht parser')).
    reflexivity.
  - rewrite (update_finish_failure parser s _ now _ (Ht parser)).
    reflexivity.
  - intros s' ip r Hip' Hp.
    unfold update_finish, update_try, check_sensor, parse, usesLocalSensor.
    rewrite Hip'. cbn [await_get try_bind]. rewrite Hp. reflexivity.
Qed.

Lemma cloud_response_without_sensor_witness :
  update_try sampleParser cloudSensor (Resolved JNull) 2000 = inl TypeError
  /\ update_try sampleParser cloudSensor (Resolved samplePayload) 2000
     = inl (NoSensorFound "12345" (Some "READKEY"))
  /\ lastReading
       (fst (update_finish sampleParser cloudSensor (Resolved JNull) 2000))
     = None
  /\ exists r,
       lastReading
         (fst (update_finish sampleParser localSensor (Resolved samplePayload)
                 2000)) = Some r.
Proof.
  pose proof (cloud_response_without_sensor sampleParser sampleParser
                cloudSensor JNull 2000 eq_refl
                ltac:(intros fields H; discriminate H))
    as (_ & Hnull & _ & _ & Hc & _).
  pose proof (cloud_response_without_sensor sampleParser sampleParser
                cloudSensor samplePayload 2000 eq_refl
                ltac:(intros fields [= <-]; reflexivity))
    as (Hobj & _ & _ & _ & _ & Hl).
  split; [exact (Hnull eq_refl) | split; [| split; [exact Hc |]]].
  - apply Hobj. discriminate.
  - eexists. apply (Hl localSensor "192.168.1.20"); reflexivity.
Defined.

(** ** What updateHomeKit pushes *)

(** C10: with a reading present, [updateHomeKit] always writes the air
    quality and the humidity; it writes the temperature and the VOC density
    only when the field is truthy, so a field that is absent or exactly 0
    leaves the value HomeKit showed before. *)
Theorem updateHomeKit_skips_falsy_fields (s : PurpleAirSensor)
    (r : SensorReading) (flag : bool) (hk : HomeKit) :
  lastReading s = Some r ->
  (truthy (temperature r) = false ->
     apply_events hk (updateHomeKit s flag)
       !! (temperatureService, CurrentTemperature)
     = hk !! (temperatureService, CurrentTemperature))
  /\ (forall t, temperature r = Some t -> truthy_number t = true ->
        apply_events hk (updateHomeKit s flag)
          !! (temperatureService, CurrentTemperature) = Some t)
  /\ (truthy (voc r) = false ->
        apply_events hk (updateHomeKit s flag)
          !! (airQualityService, VOCDensity)
        = hk !! (airQualityService, VOCDensity))
  /\ (forall v, voc r = Some v -> truthy_number v = true ->
        apply_events hk (updateHomeKit s flag)
          !! (airQualityService, VOCDensity) = Some v)
  /\ apply_events hk (updateHomeKit s flag)
       !! (humidityService, CurrentRelativeHumidity) = Some (humidity r)
  /\ apply_events hk (updateHomeKit s flag)
       !! (airQualityService, AirQuality)
     = Some (airQualityHomekitReading r)
  /\ truthy (Some 0%Q) = false.
Proof.
  intros Hr. unfold updateHomeKit, truthy. rewrite Hr.
  destruct flag, (temperature r) as [t|], (voc r) as [v|];
    try destruct (truthy_number t) eqn:Ht;
    try destruct (truthy_number v) eqn:Hv;
    cbn [app apply_events fold_left apply_event];
    repeat split; intros; simplify_map_eq; try reflexivity; congruence.
Qed.

Lemma updateHomeKit_skips_falsy_fields_witness :
  apply_events {[ (temperatureService, CurrentTemperature) := 21%Q ]}
    (updateHomeKit (set_lastReading (Some zeroTemperatureReading) cloudSensor)
       false)
    !! (temperatureService, CurrentTemperature)
  = ({[ (temperatureService, CurrentTemperature) := 21%Q ]} : HomeKit)
      !! (temperatureService, CurrentTemperature).
Proof.
  exact (proj1 (updateHomeKit_skips_falsy_fields
                  (set_lastReading (Some zeroTemperatureReading) cloudSensor)
                  zeroTemperatureReading false
                  {[ (temperatureService, CurrentTemperature) := 21%Q ]}
                  eq_refl) eq_refl).
Defined.

(** ** The density-to-AQI conversion *)

Section Converter.

Local Open Scope Q_scope.

Lemma bracket_ok_spec (b : Bracket) :
  bracket_ok b = true -> concLow b < concHigh b /\ aqiLow b <= aqiHigh b.
Proof.
  unfold bracket_ok. intros [Hw Hl]%andb_true_iff. split.
  - apply Qnot_le_lt. intros Hle. apply Qle_bool_iff in Hle.
    rewrite Hle in Hw. discriminate.
  - apply Qle_bool_iff, Hl.
Qed.

Lemma line_mono (b : Bracket) (p q : Q) :
  bracket_ok b = true -> p <= q -> line b p <= line b q.
Proof.
  intros [Hw Hl]%bracket_ok_spec Hpq. unfold line.
  assert (Hk : 0 <= (aqiHigh b - aqiLow b) / (concHigh b - concLow b)).
  { apply Qle_shift_div_l; lra. }
  apply Qplus_le_l. rewrite !(Qmult_comm (_ / _)).
  apply Qmult_le_compat_r; [lra | exact Hk].
Qed.

Lemma interpolate_finite (b : Bracket) (p : Q) :
  bracket_ok b = true -> interpolate b p = Some (line b p).
Proof.
  intros [Hw _]%bracket_ok_spec. unfold interpolate.
  destruct (Qeq_bool (concHigh b) (concLow b)) eqn:He; [| reflexivity].
  apply Qeq_bool_iff in He. lra.
Qed.

Lemma chain_ok_head (b : Bracket) (rest : list Bracket) :
  chain_ok b rest = true -> bracket_ok b = true.
Proof. destruct rest; cbn; intros H%andb_true_iff; tauto. Qed.

Lemma chain_ok_cons (b b' : Bracket) (rest : list Bracket) :
  chain_ok b (b' :: rest) = true ->
  bracket_ok b = true
  /\ concHigh b <= concHigh b'
  /\ line b (concHigh b) <= line b' (concHigh b)
  /\ chain_ok b' rest = true.
Proof.
  cbn [chain_ok].
  intros [Hb [[Hh Hj]%andb_true_iff Hc]%andb_true_iff]%andb_true_iff.
  repeat split; try assumption; apply Qle_bool_iff; assumption.
Qed.

Lemma bracket_of_ok (rest : list Bracket) (b : Bracket) (p : Q) :
  chain_ok b rest = true -> bracket_ok (bracket_of b rest p) = true.
Proof.
  revert b. induction rest as [|b' rest IH]; intros b Hc.
  - exact (chain_ok_head b [] Hc).
  - apply chain_ok_cons in Hc as (Hb & _ & _ & Hc). cbn [bracket_of].
    destruct (Qle_bool p (concHigh b)); [exact Hb | apply IH, Hc].
Qed.

(** From a point [c] inside or below a bracket, the index at any density
    not below [c] is not below that bracket's line at [c]. *)
Lemma bracket_of_above (rest : list Bracket) (b : Bracket) (c p : Q) :
  chain_ok b rest = true -> c <= p -> c <= concHigh b ->
  line b c <= line (bracket_of b rest p) p.
Proof.
  revert b c. induction rest as [|b' rest IH]; intros b c Hc Hcp Hcb.
  - apply line_mono; [exact (chain_ok_head b [] Hc) | exact Hcp].
  - apply chain_ok_cons in Hc as (Hb & Hh & Hj & Hc). cbn [bracket_of].
    destruct (Qle_bool p (concHigh b)) eqn:Hp.
    + apply line_mono; assumption.
    + assert (Hlt : concHigh b < p).
      { apply Qnot_le_lt. intros Hle. apply Qle_bool_iff in Hle.
        rewrite Hle in Hp. discriminate. }
      apply Qle_trans with (line b (concHigh b));
        [apply line_mono; assumption |].
      apply Qle_trans with (line b' (concHigh b)); [exact Hj |].
      apply IH; [exact Hc | lra | exact Hh].
Qed.

Lemma bracket_of_mono (rest : list Bracket) (b : Bracket) (p q : Q) :
  chain_ok b rest = true -> p <= q ->
  line (bracket_of b rest p) p <= line (bracket_of b rest q) q.
Proof.
  revert b. induction rest as [|b' rest IH]; intros b Hc Hpq.
  - apply line_mono; [exact (chain_ok_head b [] Hc) | exact Hpq].
  - pose proof (bracket_of_above (b' :: rest) b p q Hc Hpq) as Habove.
    apply chain_ok_cons in Hc as (Hb & Hh & Hj & Hc).
    cbn [bracket_of] in *.
    destruct (Qle_bool p (concHigh b)) eqn:Hp.
    + apply Habove, Qle_bool_iff, Hp.
    + destruct (Qle_bool q (concHigh b)) eqn:Hq.
      * apply Qle_bool_iff in Hq.
        assert (Hle : Qle_bool p (concHigh b) = true)
          by (apply Qle_bool_iff; lra).
        rewrite Hle in Hp. discriminate.
      * apply IH; assumption.
Qed.

Lemma table_ok_spec (lowest : Bracket) (rest : list Bracket) :
  table_ok (lowest :: rest) = true ->
  concLow lowest == 0 /\ aqiLow lowest == 0 /\ chain_ok lowest rest = true.
Proof.
  cbn [table_ok].
  intros [[Hc Ha]%andb_true_iff Hch]%andb_true_iff.
  repeat split; try assumption; apply Qeq_bool_iff; assumption.
Qed.

(** Over a well-formed table the result is a number: the line of the
    selected bracket at the floored input. *)
Lemma densityToAqi_with_finite (lowest : Bracket) (rest : list Bracket)
    (p : Q) :
  chain_ok lowest rest = true ->
  densityToAqi_with (lowest :: rest) p
  = Some (let p' := if Qle_bool (concLow lowest) p then p
                    else concLow lowest in
          line (bracket_of lowest rest p') p').
Proof.
  intros Hc. cbn [densityToAqi_with].
  apply interpolate_finite, bracket_of_ok, Hc.
Qed.

(** C8: over a well-formed breakpoint table, [densityToAqi] maps 0 to 0,
    is non-decreasing on non-negative inputs, and yields a number for
    every input, below the lowest or above the highest bracket included. *)
Theorem densityToAqi_monotone_total (table : list Bracket) :
  table_ok table = true ->
  (exists a, densityToAqi_with table 0 = Some a /\ a == 0)
  /\ (forall p q, 0 <= p -> p <= q ->
        exists a b, densityToAqi_with table p = Some a
                    /\ densityToAqi_with table q = Some b
                    /\ a <= b)
  /\ (forall p, exists a, densityToAqi_with table p = Some a).
Proof.
  destruct table as [|lowest rest]; [discriminate |].
  intros (Hcl & Hal & Hc)%table_ok_spec.
  assert (Hfloor : forall p, 0 <= p ->
            (if Qle_bool (concLow lowest) p then p else concLow lowest) = p).
  { intros p Hp.
    assert (Hle : Qle_bool (concLow lowest) p = true)
      by (apply Qle_bool_iff; lra).
    rewrite Hle. reflexivity. }
  split; [| split].
  - eexists. split; [apply densityToAqi_with_finite, Hc |].
    cbv zeta. rewrite Hfloor by lra.
    destruct (bracket_ok_spec lowest (chain_ok_head _ _ Hc)) as [Hw _].
    assert (Hb : bracket_of lowest rest 0 = lowest).
    { destruct rest as [|b' rest']; [reflexivity |]. cbn [bracket_of].
      assert (Hle : Qle_bool 0 (concHigh lowest) = true)
        by (apply Qle_bool_iff; lra).
      rewrite Hle. reflexivity. }
    rewrite Hb. unfold line. rewrite Hcl, Hal. ring.
  - intros p q Hp Hpq. do 2 eexists.
    split; [apply densityToAqi_with_finite, Hc |].
    split; [apply densityToAqi_with_finite, Hc |].
    cbv zeta. rewrite !Hfloor by lra.
    apply bracket_of_mono; assumption.
  - intros p. eexists. apply densityToAqi_with_finite, Hc.
Qed.

End Converter.

Lemma pm25Breakpoints_ok : table_ok pm25Breakpoints = true.
Proof. reflexivity. Qed.

Lemma densityToAqi_monotone_total_witness :
  (exists a, densityToAqi 0 = Some a /\ (a == 0)%Q)
  /\ (exists a b, densityToAqi 12 = Some a
                  /\ densityToAqi (123 # 10) = Some b
                  /\ (a <= b)%Q)
  /\ (exists a, densityToAqi (-(5)) = Some a)
  /\ (exists a, densityToAqi 1000 = Some a).
Proof.
  destruct (densityToAqi_monotone_total pm25Breakpoints eq_refl)
    as (H0 & Hmono & Hfin).
  split; [exact H0 | split; [| split]].
  - apply (Hmono 12%Q (123 # 10)%Q); discriminate.
  - apply Hfin.
  - apply Hfin.
Defined.

(** The spec's example: 12.3 ug/m3 maps to an index between 51 and 52. *)
Example densityToAqi_example :
  exists a, densityToAqi (123 # 10) = Some a /\ (51 <= a)%Q /\ (a < 52)%Q.
Proof. eexists. split; [reflexivity | split; reflexivity || discriminate]. Qed.

(** * Further properties of the accessory *)

(** ** The configured interval *)

(** X1: the constructor never leaves a zero interval: an absent or zero
    [updateIntervalSecs] gives the default of 300000 ms, any other value is
    taken in milliseconds as it is, with no lower bound. *)
Theorem construct_updateIntervalMs_cases (config : AccessoryConfig) :
  updateIntervalMs (construct config) <> 0
  /\ (forall secs, cfg_updateIntervalSecs config = Some secs -> secs <> 0 ->
        updateIntervalMs (construct config) = secs * 1000)
  /\ (cfg_updateIntervalSecs config = None
      \/ cfg_updateIntervalSecs config = Some 0 ->
      updateIntervalMs (construct config) = 300000).
Proof.
  unfold construct. cbn [updateIntervalMs].
  destruct (cfg_updateIntervalSecs config) as [secs|].
  - destruct (Z.eqb_spec secs 0) as [-> | Hne].
    + split; [discriminate | split; [intros ? [= <-] ?; lia | reflexivity]].
    + split; [lia | split].
      * intros ? [= <-] _. reflexivity.
      * intros [H | [= H]]; [discriminate H | lia].
  - split; [discriminate | split; [discriminate | reflexivity]].
Qed.

Lemma construct_updateIntervalMs_cases_witness :
  updateIntervalMs (construct sampleConfig) = 10 * 1000.
Proof.
  apply (proj1 (proj2 (construct_updateIntervalMs_cases sampleConfig)) 10);
    [reflexivity | discriminate].
Defined.

(** ** Rate guard against freshness *)

Lemma rate_guard_skip_active (s : PurpleAirSensor) (now : Z) :
  MIN_UPDATE_INTERVAL_MS <= updateIntervalMs s ->
  rate_guard s now = true -> lastReadingActive s now = true.
Proof.
  intros Hmin. unfold rate_guard, lastReadingActive.
  destruct (lastReading s) as [r|]; [| discriminate].
  rewrite !Z.gtb_ltb, !Z.ltb_lt. lia.
Qed.

Lemma stale_passes_guard (s : PurpleAirSensor) (now : Z) :
  MIN_UPDATE_INTERVAL_MS <= updateIntervalMs s ->
  lastReadingActive s now = false -> rate_guard s now = false.
Proof.
  intros Hmin Hstale. destruct (rate_guard s now) eqn:Hg; [| reflexivity].
  rewrite (rate_guard_skip_active s now Hmin Hg) in Hstale. discriminate.
Qed.

(** X2: with an interval of at least the minimum spacing, [update] is only ever
    skipped while the reading still counts as active: once the reading is
    stale, the next [update] sends a request. *)
Theorem stale_reading_is_refreshed (s : PurpleAirSensor) (now : Z) :
  MIN_UPDATE_INTERVAL_MS <= updateIntervalMs s ->
  (rate_guard s now = true -> lastReadingActive s now = true)
  /\ (lastReadingActive s now = false ->
      snd (update_start s now) = Some (build_request s)).
Proof.
  intros Hmin. split; [apply rate_guard_skip_active, Hmin |].
  intros Hstale.
  rewrite (update_start_fetch s now (stale_passes_guard s now Hmin Hstale)).
  reflexivity.
Qed.

Lemma stale_reading_is_refreshed_witness :
  snd (update_start (set_lastReading (Some sampleReading) cloudSensor)
         1300000)
  = Some (build_request cloudSensor).
Proof.
  apply (proj2 (stale_reading_is_refreshed
                  (set_lastReading (Some sampleReading) cloudSensor) 1300000
                  ltac:(discriminate))).
  reflexivity.
Defined.

(** X3: with an interval below the minimum spacing there is a window, from the
    reading's age reaching the interval up to the minimum spacing, in which
    the reading counts as inactive and [update] is skipped all the same. *)
Theorem short_interval_stale_and_skipped (s : PurpleAirSensor)
    (r : SensorReading) (now : Z) :
  lastReading s = Some r ->
  updateTimeMs r + updateIntervalMs s <= now ->
  now < updateTimeMs r + MIN_UPDATE_INTERVAL_MS ->
  lastReadingActive s now = false
  /\ snd (update_start s now) = None.
Proof.
  intros Hr Hlo Hhi. split.
  - unfold lastReadingActive. rewrite Hr, Z.gtb_ltb. apply Z.ltb_ge. lia.
  - rewrite (update_start_skip s r now Hr); [reflexivity | lia].
Qed.

Lemma short_interval_stale_and_skipped_witness :
  lastReadingActive
    (set_lastReading (Some sampleReading) (construct sampleConfig)) 1010000
  = false
  /\ snd (update_start
            (set_lastReading (Some sampleReading) (construct sampleConfig))
            1010000) = None.
Proof.
  apply (short_interval_stale_and_skipped
           (set_lastReading (Some sampleReading) (construct sampleConfig))
           sampleReading 1010000 eq_refl);
    [discriminate | reflexivity].
Defined.

(** X4: time only moves a reading towards refresh and staleness: once the guard
    lets [update] through it does so at every later time, and a reading that
    is inactive stays inactive. *)
Theorem guard_and_freshness_monotone (s : PurpleAirSensor) (now now2 : Z) :
  now <= now2 ->
  (rate_guard s now = false -> rate_guard s now2 = false)
  /\ (lastReadingActive s now = false -> lastReadingActive s now2 = false).
Proof.
  intros Hle. unfold rate_guard, lastReadingActive.
  destruct (lastReading s) as [r|]; [| split; reflexivity].
  rewrite !Z.gtb_ltb, !Z.ltb_ge. lia.
Qed.

Lemma guard_and_freshness_monotone_witness :
  rate_guard (set_lastReading (Some sampleReading) cloudSensor) 2000000
  = false.
Proof.
  apply (proj1 (guard_and_freshness_monotone
                  (set_lastReading (Some sampleReading) cloudSensor)
                  1030000 2000000 ltac:(discriminate))).
  reflexivity.
Defined.

(** X5: a status query answered [false] from a cached reading leaves a
    refresh pending, provided the interval exceeds the minimum spacing by at
    least the time that passes between the two clock reads of the handler:
    the answer comes first, then the interceptor's line and the GET. *)
Theorem statusActiveGet_stale_starts_refresh (s : PurpleAirSensor)
    (r : SensorReading) (now now' : Z) :
  lastReading s = Some r ->
  MIN_UPDATE_INTERVAL_MS + (now' - now) <= updateIntervalMs s ->
  In (Callback false) (fst (statusActiveGet s now now')) ->
  statusActiveGet s now now'
  = ([Callback false;
      log s (MsgFetching (request_url s) (key s));
      HttpGet (build_request s)],
     Some (build_request s)).
Proof.
  intros Hr Hmin Hcb.
  unfold statusActiveGet, update_sync, update_deferred in *.
  rewrite Hr in *.
  destruct (Z.lt_ge_cases (now - updateTimeMs r) MIN_UPDATE_INTERVAL_MS)
    as [Hlt | Hge].
  - exfalso. rewrite (update_start_skip s r now Hr Hlt) in Hcb.
    assert (Hact : lastReadingActive s now' = true).
    { unfold lastReadingActive. rewrite Hr, Z.gtb_ltb. apply Z.ltb_lt. lia. }
    rewrite Hact in Hcb. cbn in Hcb.
    destruct Hcb as [H | [H | []]]; [| discriminate H].
    revert H. unfold log. destruct (verboseLogging s); discriminate.
  - assert (Hg : rate_guard s now = false).
    { unfold rate_guard. rewrite Hr, Z.gtb_ltb. apply Z.ltb_ge. lia. }
    rewrite (update_start_fetch s now Hg) in *. cbn in Hcb |- *.
    destruct Hcb as [[= ->] | [H | [H | []]]]; [reflexivity | |].
    + exfalso. revert H. unfold log. destruct (verboseLogging s); discriminate.
    + discriminate H.
Qed.

Lemma statusActiveGet_stale_starts_refresh_witness :
  statusActiveGet (set_lastReading (Some sampleReading) cloudSensor)
    1300000 1300002
  = ([Callback false;
      Log LDebug
        (MsgFetching "https://api.purpleair.com/v1/sensors/12345"
           (Some "READKEY"));
      HttpGet (build_request cloudSensor)],
     Some (build_request cloudSensor)).
Proof.
  refine (statusActiveGet_stale_starts_refresh
            (set_lastReading (Some sampleReading) cloudSensor)
            sampleReading 1300000 1300002 eq_refl ltac:(discriminate) _).
  left. reflexivity.
Defined.

(** ** The sensor check *)

(** X6: the cloud-source check lets a body through exactly when it is an object
    with a [sensor] entry, whatever that entry holds ([null] included); a
    [null] body throws a TypeError and every other body the no-sensor-found
    error.  The local source is never checked. *)
Theorem check_sensor_passes_iff (s : PurpleAirSensor) (data : Json) :
  (check_sensor s data = inr tt <->
   localIPAddress s <> None
   \/ exists fields v, data = JObj fields /\ assoc "sensor" fields = Some v)
  /\ (localIPAddress s = None -> data = JNull ->
      check_sensor s data = throw TypeError)
  /\ (localIPAddress s = None -> data <> JNull ->
      (forall fields, data = JObj fields -> assoc "sensor" fields = None) ->
      check_sensor s data = throw (NoSensorFound (sensor s) (key s))).
Proof.
  unfold check_sensor, usesLocalSensor, throw.
  destruct (localIPAddress s) as [ip|].
  - split; [| split; discriminate].
    split; [intros _; left; discriminate | reflexivity].
  - split; [| split].
    + destruct data as [| b | q | str | items | fields]; cbn;
        try (split; [discriminate |];
             intros [H | (fields' & v & H & _)];
             [destruct (H eq_refl) | discriminate H]).
      destruct (assoc "sensor" fields) as [v|] eqn:Ha.
      * split; [| reflexivity]. intros _. right. exists fields, v. auto.
      * split; [discriminate |].
        intros [H | (fields' & v & [= <-] & Hv)];
          [destruct (H eq_refl) | congruence].
    + intros _ ->. reflexivity.
    + intros _ Hn Hf.
      destruct data as [| b | q | str | items | fields]; cbn;
        try reflexivity; [destruct (Hn eq_refl) |].
      rewrite (Hf fields eq_refl). reflexivity.
Qed.

Lemma check_sensor_passes_iff_witness :
  check_sensor cloudSensor (JObj [("sensor", JNull)]) = inr tt
  /\ check_sensor cloudSensor JNull = throw TypeError
  /\ check_sensor cloudSensor (JStr "<html>")
     = throw (NoSensorFound "12345" (Some "READKEY")).
Proof.
  split; [| split].
  - apply (proj1 (check_sensor_passes_iff cloudSensor
                    (JObj [("sensor", JNull)]))).
    right. exists [("sensor", JNull)], JNull. split; reflexivity.
  - apply (proj1 (proj2 (check_sensor_passes_iff cloudSensor JNull)));
      reflexivity.
  - apply (proj2 (proj2 (check_sensor_passes_iff cloudSensor
                           (JStr "<html>"))));
      [reflexivity | discriminate | discriminate].
Defined.

(** ** The request, again *)

(** X7: with a local address configured the request depends on nothing but that
    address and the read key: the sensor identifier and the API key play no
    part. *)
Theorem local_request_ignores_sensor (s1 s2 : PurpleAirSensor) (ip : string) :
  localIPAddress s1 = Some ip ->
  localIPAddress s2 = Some ip ->
  key s1 = key s2 ->
  build_request s1 = build_request s2.
Proof.
  intros H1 H2 Hk. unfold build_request, request_url, request_headers.
  rewrite H1, H2, Hk. reflexivity.
Qed.

Lemma local_request_ignores_sensor_witness :
  build_request localSensor = build_request otherLocalSensor.
Proof.
  exact (local_request_ignores_sensor localSensor otherLocalSensor
           "192.168.1.20" eq_refl eq_refl eq_refl).
Defined.

(** ** What updateHomeKit touches *)

Lemma updateHomeKit_cases (s : PurpleAirSensor) (flag : bool) :
  updateHomeKit s flag = []
  \/ exists r d wt wv,
       lastReading s = Some r
       /\ updateHomeKit s flag
          = [SetCharacteristic airQualityService AirQuality
               (airQualityHomekitReading r);
             SetCharacteristic airQualityService PM2_5Density d]
            ++ wt
            ++ [SetCharacteristic humidityService CurrentRelativeHumidity
                  (humidity r)]
            ++ wv
       /\ (wt = [] \/ exists t,
             wt = [SetCharacteristic temperatureService CurrentTemperature t])
       /\ (wv = [] \/ exists v,
             wv = [SetCharacteristic airQualityService VOCDensity v]).
Proof.
  unfold updateHomeKit. destruct (lastReading s) as [r|]; [| left; reflexivity].
  right. exists r, (if flag then aqi r else pm25 r).
  do 2 eexists. split; [reflexivity |]. split; [| split].
  - destruct flag; reflexivity.
  - destruct (temperature r) as [t|]; [| left; reflexivity].
    destruct (truthy_number t); [right; eexists |left]; reflexivity.
  - destruct (voc r) as [v|]; [| left; reflexivity].
    destruct (truthy_number v); [right; eexists |left]; reflexivity.
Qed.

(** X8: [updateHomeKit] writes nothing but the five characteristics it names,
    each on its own service: every other value HomeKit shows is left as it
    was. *)
Theorem updateHomeKit_frame (s : PurpleAirSensor) (flag : bool)
    (hk : HomeKit) (k : ServiceId * Characteristic) :
  ~ In k written_keys ->
  apply_events hk (updateHomeKit s flag) !! k = hk !! k.
Proof.
  intros Hk.
  destruct (updateHomeKit_cases s flag)
    as [-> | (r & d & wt & wv & _ & -> & Hwt & Hwv)]; [reflexivity |].
  unfold written_keys in Hk. cbn [In] in Hk.
  destruct Hwt as [-> | [t ->]], Hwv as [-> | [v ->]];
    cbn [app apply_events fold_left apply_event];
    rewrite ?lookup_insert_ne; try reflexivity;
    intros <-; tauto.
Qed.

Lemma updateHomeKit_frame_witness :
  apply_events {[ (temperatureService, AirQuality) := 3%Q ]}
    (updateHomeKit (set_lastReading (Some sampleReading) cloudSensor) true)
    !! (temperatureService, AirQuality)
  = ({[ (temperatureService, AirQuality) := 3%Q ]} : HomeKit)
      !! (temperatureService, AirQuality).
Proof.
  apply (updateHomeKit_frame
           (set_lastReading (Some sampleReading) cloudSensor) true
           {[ (temperatureService, AirQuality) := 3%Q ]}
           (temperatureService, AirQuality)).
  cbn. intros H. decompose [or] H; try discriminate; assumption.
Defined.

(** Pushing the same reading twice shows the same values as pushing it
    once. *)
Theorem updateHomeKit_idempotent (s : PurpleAirSensor) (flag : bool)
    (hk : HomeKit) :
  apply_events (apply_events hk (updateHomeKit s flag)) (updateHomeKit s flag)
  = apply_events hk (updateHomeKit s flag).
Proof.
  destruct (updateHomeKit_cases s flag)
    as [-> | (r & d & wt & wv & _ & -> & Hwt & Hwv)]; [reflexivity |].
  destruct Hwt as [-> | [t ->]], Hwv as [-> | [v ->]];
    cbn [app apply_events fold_left apply_event];
    apply map_eq; intros [[] []]; simplify_map_eq; reflexivity.
Qed.

(** ** Whole calls of update *)

Lemma set_lastReading_id (s : PurpleAirSensor) :
  set_lastReading (lastReading s) s = s.
Proof. destruct s. reflexivity. Qed.

Lemma erase_level_log (s : PurpleAirSensor) (m : LogMsg) :
  erase_level (log s m) = Log LDebug m.
Proof. unfold log. destruct (verboseLogging s); reflexivity. Qed.

Section UpdateFurther.

Variable parsePurpleAirJson :
  Json -> string -> string -> bool -> Z -> ParseError + SensorReading.

(** The two ways [update] can end after its request went out. *)
Lemma update_finish_cases (s : PurpleAirSensor) (outcome : FetchOutcome)
    (now : Z) :
  (exists e,
     update_try parsePurpleAirJson s outcome now = inl e
     /\ update_finish parsePurpleAirJson s outcome now
        = (set_lastReading None s,
           [Log LError (MsgErrorFetching (request_url s) (error_detail e))]))
  \/ (exists data r,
        outcome = Resolved data
        /\ check_sensor s data = inr tt
        /\ parsePurpleAirJson data (averages s) (conversion s)
             (usesLocalSensor s) now = inr r
        /\ update_finish parsePurpleAirJson s outcome now
           = (set_lastReading (Some r) s,
              log s (MsgReceived r (sensor s))
              :: updateHomeKit (set_lastReading (Some r) s)
                   (aqiInsteadOfDensity s))).
Proof.
  unfold update_finish.
  destruct (update_try parsePurpleAirJson s outcome now) as [e | res] eqn:Ht.
  - left. exists e. split; reflexivity.
  - right. revert Ht. unfold update_try, parse, await_get.
    destruct outcome as [data | response message]; [| discriminate].
    cbn [try_bind].
    destruct (check_sensor s data) as [e | []] eqn:Hc; [discriminate |].
    cbn [try_bind].
    destruct (parsePurpleAirJson data (averages s) (conversion s)
                (usesLocalSensor s) now) as [pe | r] eqn:Hp;
      [discriminate |].
    cbn [try_bind]. intros [= <-]. exists data, r.
    repeat split; assumption.
Qed.

(** X9: [update] stores a reading exactly when the GET resolved, the sensor
    check passed and the parser returned that reading; in every other case
    that reaches the second half it leaves no reading. *)
Theorem update_finish_stores_iff (s : PurpleAirSensor)
    (outcome : FetchOutcome) (now : Z) (r : SensorReading) :
  lastReading (fst (update_finish parsePurpleAirJson s outcome now)) = Some r
  <-> exists data,
        outcome = Resolved data
        /\ check_sensor s data = inr tt
        /\ parsePurpleAirJson data (averages s) (conversion s)
             (usesLocalSensor s) now = inr r.
Proof.
  split.
  - destruct (update_finish_cases s outcome now)
      as [(e & _ & ->) | (data & r' & Ho & Hc & Hp & ->)].
    + discriminate.
    + intros [= <-]. exists data. auto.
  - intros (data & -> & Hc & Hp).
    unfold update_finish, update_try, parse, await_get. cbn [try_bind].
    rewrite Hc. cbn [try_bind]. rewrite Hp. reflexivity.
Qed.

(** [update] changes nothing of the instance but [lastReading]. *)
Lemma update_keeps_config (s : PurpleAirSensor) (now : Z)
    (outcome : FetchOutcome) (now' : Z) :
  exists r, fst (update parsePurpleAirJson s now outcome now')
            = set_lastReading r s.
Proof.
  unfold update. destruct (update_start s now) as [ev [req|]].
  - destruct (update_finish_cases s outcome now')
      as [(e & _ & ->) | (data & r & _ & _ & _ & ->)]; eexists; reflexivity.
  - exists (lastReading s). symmetry. apply set_lastReading_id.
Qed.

(** The traffic of one call: no request when the guard skips, otherwise
    exactly one, the request built from the configuration. *)
Lemma update_requests (s : PurpleAirSensor) (now : Z)
    (outcome : FetchOutcome) (now' : Z) :
  List.filter is_HttpGet (snd (update parsePurpleAirJson s now outcome now'))
  = if rate_guard s now then [] else [HttpGet (build_request s)].
Proof.
  assert (Hl : forall x m l, List.filter is_HttpGet (log x m :: l)
                             = List.filter is_HttpGet l).
  { intros x m l. unfold log. destruct (verboseLogging x); reflexivity. }
  assert (Hh : forall x f, List.filter is_HttpGet (updateHomeKit x f) = []).
  { intros x f.
    destruct (updateHomeKit_cases x f)
      as [-> | (r & d & wt & wv & _ & -> & [-> | [t ->]] & [-> | [v ->]])];
      reflexivity. }
  destruct (rate_guard s now) eqn:Hg.
  - apply rate_guard_true_iff in Hg as (r & Hr & Hlt).
    unfold update. rewrite (update_start_skip s r now Hr Hlt). apply Hl.
  - unfold update. rewrite (update_start_fetch s now Hg).
    destruct (update_finish_cases s outcome now')
      as [(e & _ & ->) | (data & r & _ & _ & _ & ->)];
      cbn [snd]; rewrite List.filter_app, Hl; [reflexivity |].
    rewrite Hl, Hh. reflexivity.
Qed.

(** X10: over any run of the timer the instance keeps its configuration, every
    request sent is the one the configuration determines, and there is at
    most one request per firing. *)
Theorem run_timer_config_and_requests (ticks : list Tick)
    (s : PurpleAirSensor) :
  (exists r, fst (run_timer parsePurpleAirJson s ticks) = set_lastReading r s)
  /\ (exists n, List.filter is_HttpGet
                  (snd (run_timer parsePurpleAirJson s ticks))
                = repeat (HttpGet (build_request s)) n
                /\ (n <= length ticks)%nat).
Proof.
  revert s. induction ticks as [|t rest IH]; intros s.
  - split; [exists (lastReading s); symmetry; apply set_lastReading_id |].
    exists 0%nat. split; [reflexivity | lia].
  - cbn [run_timer].
    pose proof (update_requests s (tick_now t) (tick_outcome t) (tick_done t))
      as Hreq.
    destruct (update_keeps_config s (tick_now t) (tick_outcome t)
                (tick_done t)) as [r1 Hs1].
    destruct (update parsePurpleAirJson s (tick_now t) (tick_outcome t)
                (tick_done t)) as [s1 ev1].
    cbn [fst snd] in *. subst s1.
    destruct (IH (set_lastReading r1 s)) as [[r2 Hs2] (n & Hev & Hn)].
    destruct (run_timer parsePurpleAirJson (set_lastReading r1 s) rest)
      as [s2 ev2].
    cbn [fst snd] in *. split; [exists r2; subst s2; reflexivity |].
    rewrite List.filter_app, Hreq, Hev.
    change (build_request (set_lastReading r1 s)) with (build_request s).
    destruct (rate_guard s (tick_now t)).
    + exists n. split; [reflexivity | cbn; lia].
    + exists (S n). split; [reflexivity | cbn; lia].
Qed.

(** X11: a fetching attempt replaces the reading wholesale: what [update] does
    after its request went out does not depend on the reading held before. *)
Theorem update_finish_forgets_previous (s : PurpleAirSensor)
    (previous : option SensorReading) (outcome : FetchOutcome) (now : Z) :
  update_finish parsePurpleAirJson (set_lastReading previous s) outcome now
  = update_finish parsePurpleAirJson s outcome now.
Proof.
  unfold update_finish, update_try, parse, await_get, check_sensor.
  destruct outcome as [data | response message]; [| reflexivity].
  cbn [try_bind].
  change (usesLocalSensor (set_lastReading previous s))
    with (usesLocalSensor s).
  destruct (usesLocalSensor s), (js_get "sensor" data) as [[j|]|];
    cbn [try_bind throw]; try reflexivity;
    cbn [averages conversion set_lastReading];
    destruct (parsePurpleAirJson data _ _ _ now); reflexivity.
Qed.

(** X12: after a skipped or a failed [update] HomeKit shows what it showed
    before: nothing is written, so the last values pushed stay on display. *)
Theorem update_without_reading_keeps_homekit (s : PurpleAirSensor) (now : Z)
    (outcome : FetchOutcome) (now' : Z) (hk : HomeKit) :
  rate_guard s now = true
  \/ (exists e, update_try parsePurpleAirJson s outcome now' = inl e) ->
  apply_events hk (snd (update parsePurpleAirJson s now outcome now')) = hk.
Proof.
  assert (Hl : forall x m, apply_event hk (log x m) = hk).
  { intros x m. unfold log. destruct (verboseLogging x); reflexivity. }
  destruct (rate_guard s now) eqn:Hg.
  - intros _. apply rate_guard_true_iff in Hg as (r & Hr & Hlt).
    unfold update. rewrite (update_start_skip s r now Hr Hlt).
    cbn [snd apply_events fold_left]. apply Hl.
  - intros [H | (e & He)]; [discriminate H |].
    rewrite (update_fetching parsePurpleAirJson s now outcome now' Hg),
      (update_finish_failure parsePurpleAirJson s outcome now' e He).
    cbn [update_catch snd app apply_events fold_left updateHomeKit
           lastReading set_lastReading].
    rewrite Hl. reflexivity.
Qed.

(** X13: a cloud response with no sensor record is reported at error
    level, whatever the verbosity, in a line that carries the request URL:
    for every body but [null] it is the no-sensor-found line, with the
    sensor identifier and the configured read key; for a [null] body it is
    the TypeError line, which carries neither. *)
Theorem missing_sensor_error_line (s : PurpleAirSensor) (now : Z)
    (data : Json) (now' : Z) :
  rate_guard s now = false ->
  localIPAddress s = None ->
  (forall fields, data = JObj fields -> assoc "sensor" fields = None) ->
  (data <> JNull ->
   In (Log LError
         (MsgErrorFetching
            ("https://api.purpleair.com/v1/sensors/" +:+ sensor s)
            (ErrText (NoSensorFound (sensor s) (key s)))))
     (snd (update parsePurpleAirJson s now (Resolved data) now')))
  /\ (data = JNull ->
      In (Log LError
            (MsgErrorFetching
               ("https://api.purpleair.com/v1/sensors/" +:+ sensor s)
               (ErrText TypeError)))
        (snd (update parsePurpleAirJson s now (Resolved data) now'))).
Proof.
  intros Hg Hip Hf.
  pose proof (update_try_cloud_without_sensor parsePurpleAirJson s data now'
                Hip Hf) as Ht.
  rewrite (update_fetching parsePurpleAirJson s now _ now' Hg),
    (update_finish_failure parsePurpleAirJson s _ now' _ Ht).
  cbn [update_catch snd]. rewrite (request_url_cloud s Hip).
  split.
  - intros Hn. right. right. left.
    destruct data; try reflexivity. destruct (Hn eq_refl).
  - intros ->. right. right. left. reflexivity.
Qed.


End UpdateFurther.

Lemma update_without_reading_keeps_homekit_witness :
  apply_events {[ (humidityService, CurrentRelativeHumidity) := 45%Q ]}
    (snd (update sampleParser
            (set_lastReading (Some sampleReading) cloudSensor) 1300000
            (Rejected None "timeout of 1000ms exceeded") 1301000))
  = {[ (humidityService, CurrentRelativeHumidity) := 45%Q ]}.
Proof.
  apply (update_without_reading_keeps_homekit sampleParser
           (set_lastReading (Some sampleReading) cloudSensor) 1300000
           (Rejected None "timeout of 1000ms exceeded") 1301000).
  right. eexists. reflexivity.
Defined.

Lemma missing_sensor_error_line_witness :
  In (Log LError
        (MsgErrorFetching "https://api.purpleair.com/v1/sensors/12345"
           (ErrText (NoSensorFound "12345" (Some "READKEY")))))
    (snd (update sampleParser cloudSensor 0 (Resolved samplePayload) 100))
  /\ In (Log LError
           (MsgErrorFetching "https://api.purpleair.com/v1/sensors/12345"
              (ErrText TypeError)))
       (snd (update sampleParser cloudSensor 0 (Resolved JNull) 100)).
Proof.
  split.
  - refine (proj1 (missing_sensor_error_line sampleParser cloudSensor 0
                     samplePayload 100 eq_refl eq_refl _) _).
    + intros fields [= <-]. reflexivity.
    + discriminate.
  - refine (proj2 (missing_sensor_error_line sampleParser cloudSensor 0
                     JNull 100 eq_refl eq_refl _) eq_refl).
    intros fields H. discriminate H.
Defined.

(** ** A stored reading reaches HomeKit *)

(** X15: when [update] stores a reading, the same call pushes it: the last
    values it passes to [setCharacteristic] are that reading's air quality
    and humidity, and as PM2.5 density the field the instance's preference
    selects. *)
Theorem update_success_reaches_homekit
    (parser :
       Json -> string -> string -> bool -> Z -> ParseError + SensorReading)
    (s : PurpleAirSensor) (outcome : FetchOutcome) (now : Z)
    (r : SensorReading) (hk : HomeKit) :
  lastReading (fst (update_finish parser s outcome now)) = Some r ->
  apply_events hk (snd (update_finish parser s outcome now))
    !! (airQualityService, AirQuality) = Some (airQualityHomekitReading r)
  /\ apply_events hk (snd (update_finish parser s outcome now))
       !! (humidityService, CurrentRelativeHumidity) = Some (humidity r)
  /\ apply_events hk (snd (update_finish parser s outcome now))
       !! (airQualityService, PM2_5Density)
     = Some (if aqiInsteadOfDensity s then aqi r else pm25 r).
Proof.
  destruct (update_finish_cases parser s outcome now)
    as [(e & _ & ->) | (data & r' & _ & _ & _ & ->)]; [discriminate |].
  intros [= ->]. cbn [snd apply_events fold_left].
  replace (apply_event hk (log s (MsgReceived r (sensor s)))) with hk
    by (unfold log; destruct (verboseLogging s); reflexivity).
  unfold updateHomeKit. cbn [lastReading set_lastReading].
  destruct (aqiInsteadOfDensity s), (temperature r) as [t|], (voc r) as [v|];
    try destruct (truthy_number t); try destruct (truthy_number v);
    cbn [app fold_left apply_event];
    repeat split; simplify_map_eq; reflexivity.
Qed.

Lemma update_success_reaches_homekit_witness :
  apply_events ∅
    (snd (update_finish sampleParser cloudSensor
            (Resolved sampleCloudPayload) 100))
    !! (humidityService, CurrentRelativeHumidity) = Some 45%Q.
Proof.
  refine (proj1 (proj2 (update_success_reaches_homekit sampleParser
                          cloudSensor (Resolved sampleCloudPayload) 100
                          _ ∅ eq_refl))).
Defined.
